(** * Object-level permissions of the club-net backend

    A shallow embedding of [backend/api/permissions.py]: the nine
    [BasePermission] subclasses, the helper [is_secretary], and the part of
    Django's ORM they call ([ClubMembership.objects.filter(...).exists()] and
    [obj.clubs.all()]), followed by the properties of the permission rules. *)

From Stdlib Require Import ZArith List String Bool Lia.
Import ListNotations.

Local Open Scope string_scope.
Local Open Scope Z_scope.

(** ** Model instances *)

(** Modelled from the spec: the model classes of [api/models.py] are not among
    the sources.  Each record carries the columns and relations that
    [permissions.py] reads from an instance; a foreign key is the related
    instance, so that [obj.channel.club] is [Channel.club (Post.channel obj)]
    and the lookup [club_role__club] is [ClubRole.club (ClubMembership.club_role m)].
    Primary keys are integers. *)
Module User.
Record t := { id : Z; is_superuser : bool }.
End User.

Module Club.
Record t := { id : Z }.
End Club.

Module Channel.
Record t := { id : Z; club : Club.t }.
End Channel.

Module Post.
Record t := { id : Z; channel : Channel.t }.
End Post.

Module Conversation.
Record t := { id : Z; channel : Channel.t }.
End Conversation.

Module ClubRole.
Record t := { id : Z; club : Club.t; privilege : string }.
End ClubRole.

Module ClubMembership.
Record t := { id : Z; user : User.t; club_role : ClubRole.t }.
End ClubMembership.

Module Feedback.
Record t := { id : Z; author : User.t; club : Club.t }.
End Feedback.

Module FeedbackReply.
Record t := { id : Z; parent : Feedback.t }.
End FeedbackReply.

Module Project.
Record t := { id : Z }.
End Project.

(** Django's [Model.__eq__] on two saved instances of one model: equal primary
    keys. *)
Definition user_eq (a b : User.t) : bool := User.id a =? User.id b.
Definition club_eq (a b : Club.t) : bool := Club.id a =? Club.id b.

(** ** The database and the connection *)

(** The tables of the application.  [project_clubs] is the through table of
    the many-to-many field [Project.clubs]. *)
Record Database := {
  users : list User.t;
  clubs : list Club.t;
  channels : list Channel.t;
  posts : list Post.t;
  conversations : list Conversation.t;
  club_roles : list ClubRole.t;
  club_memberships : list ClubMembership.t;
  feedbacks : list Feedback.t;
  feedback_replies : list FeedbackReply.t;
  projects : list Project.t;
  project_clubs : list (Project.t * Club.t)
}.

(** [obj.clubs.all()]: a lazy queryset, evaluated against the database it is
    run on. *)
Definition clubs_all (obj : Project.t) (db : Database) : list Club.t :=
  map snd (List.filter (fun pc => Project.id (fst pc) =? Project.id obj)
                       (project_clubs db)).

(** The keyword arguments that [permissions.py] passes to
    [ClubMembership.objects.filter]. *)
Inductive Lookup :=
| user__id (i : Z)
| club_role__club (c : Club.t)
| club_role__club__in (sub : Database -> list Club.t)
| club_role__privilege (p : string).

Definition lookup_matches (db : Database) (m : ClubMembership.t) (l : Lookup) : bool :=
  match l with
  | user__id i => User.id (ClubMembership.user m) =? i
  | club_role__club c => club_eq (ClubRole.club (ClubMembership.club_role m)) c
  | club_role__club__in sub =>
      existsb (club_eq (ClubRole.club (ClubMembership.club_role m))) (sub db)
  | club_role__privilege p =>
      String.eqb (ClubRole.privilege (ClubMembership.club_role m)) p
  end.

(** A queryset over [ClubMembership]: the conjunction of its lookups. *)
Definition QuerySet := list Lookup.

Definition objects_filter (kwargs : list Lookup) : QuerySet := kwargs.

Definition rows (qs : QuerySet) (db : Database) : list ClubMembership.t :=
  List.filter (fun m => forallb (lookup_matches db m) qs) (club_memberships db).

(** A connection is the database together with the log of the queries run on
    it ([connection.queries]). *)
Record Connection := { database : Database; queries : list QuerySet }.

(** Code that talks to the database threads the connection. *)
Definition ORM (A : Type) : Type := Connection -> A * Connection.

Definition ret {A : Type} (a : A) : ORM A := fun conn => (a, conn).

(** Whether a queryset has a row in a database. *)
Definition has_rows (qs : QuerySet) (db : Database) : bool :=
  match rows qs db with [] => false | _ :: _ => true end.

(** [qs.exists()]: runs one query, which only reads. *)
Definition exists_ (qs : QuerySet) : ORM bool :=
  fun conn =>
    (has_rows qs (database conn),
     {| database := database conn; queries := qs :: queries conn |}).

(** ** Requests *)

(** [request.method] is the upper-case name of the HTTP method;
    [request.user] is an instance of the user model ([settings.py] makes
    [IsAuthenticated] the default permission class of the views). *)
Record Request := { method : string; user : User.t }.

Inductive View : Set := APIView.

(** [rest_framework.permissions.SAFE_METHODS] *)
Definition SAFE_METHODS : list string := ["GET"; "HEAD"; "OPTIONS"].

(** [x in t] for a tuple of strings. *)
Definition str_in (x : string) (t : list string) : bool := existsb (String.eqb x) t.

(** ** permissions.py *)

(** Python's [a or q.exists()] runs the query only when [a] is false: it is
    [if a then ret true else exists_ q]. *)

Definition is_secretary (user_obj : User.t) : bool := User.is_superuser user_obj.

Module IsRepOrReadOnlyPost.
Definition has_object_permission (request : Request) (view : View) (obj : Post.t)
    : ORM bool :=
    if str_in (method request) SAFE_METHODS then ret true
    else
      exists_ (objects_filter
                 [user__id (User.id (user request));
                  club_role__club (Channel.club (Post.channel obj));
                  club_role__privilege "REP"]).
End IsRepOrReadOnlyPost.

Module IsClubMemberReadOnlyConversation.
Definition has_object_permission (request : Request) (view : View)
    (obj : Conversation.t) : ORM bool :=
    if str_in (method request) SAFE_METHODS then
      exists_ (objects_filter
                 [user__id (User.id (user request));
                  club_role__club (Channel.club (Conversation.channel obj))])
    else ret false.
End IsClubMemberReadOnlyConversation.

Module IsSelfOrReadOnlyUser.
Definition has_object_permission (request : Request) (view : View) (obj : User.t)
    : ORM bool :=
    if str_in (method request) SAFE_METHODS then ret true
    else ret (user_eq obj (user request)).
End IsSelfOrReadOnlyUser.

Module IsSecyOrRepOrReadOnlyClub.
Definition has_object_permission (request : Request) (view : View) (obj : Club.t)
    : ORM bool :=
    if str_in (method request) SAFE_METHODS then ret true
    else if String.eqb (method request) "DELETE" then
      ret (is_secretary (user request))
    else if is_secretary (user request) then ret true
    else
      exists_ (objects_filter
                 [user__id (User.id (user request));
                  club_role__club obj;
                  club_role__privilege "REP"]).
End IsSecyOrRepOrReadOnlyClub.

Module IsRepClubRole.
Definition has_object_permission (request : Request) (view : View)
    (obj : ClubRole.t) : ORM bool :=
    exists_ (objects_filter
               [user__id (User.id (user request));
                club_role__club (ClubRole.club obj);
                club_role__privilege "REP"]).
End IsRepClubRole.

Module IsRepClubMembership.
Definition has_object_permission (request : Request) (view : View)
    (obj : ClubMembership.t) : ORM bool :=
    exists_ (objects_filter
               [user__id (User.id (user request));
                club_role__club (ClubRole.club (ClubMembership.club_role obj));
                club_role__privilege "REP"]).
End IsRepClubMembership.

Module IsSecyOrRepOrAuthorFeedback.
Definition has_object_permission (request : Request) (view : View)
    (obj : Feedback.t) : ORM bool :=
    if str_in (method request) SAFE_METHODS then
      if user_eq (Feedback.author obj) (user request) then ret true
      else if is_secretary (user request) then ret true
      else
        exists_ (objects_filter
                   [user__id (User.id (user request));
                    club_role__club (Feedback.club obj);
                    club_role__privilege "REP"])
    else ret false.
End IsSecyOrRepOrAuthorFeedback.

Module IsSecyOrRepOrAuthorFeedbackReply.
Definition has_object_permission (request : Request) (view : View)
    (obj : FeedbackReply.t) : ORM bool :=
    if str_in (method request) SAFE_METHODS then
      if user_eq (Feedback.author (FeedbackReply.parent obj)) (user request)
      then ret true
      else if is_secretary (user request) then ret true
      else
        exists_ (objects_filter
                   [user__id (User.id (user request));
                    club_role__club (Feedback.club (FeedbackReply.parent obj));
                    club_role__privilege "REP"])
    else ret false.
End IsSecyOrRepOrAuthorFeedbackReply.

Module IsRepOrSecyAndClubMemberReadOnlyProject.
Definition has_object_permission (request : Request) (view : View)
    (obj : Project.t) : ORM bool :=
    if str_in (method request) SAFE_METHODS then
      if is_secretary (user request) then ret true
      else
        exists_ (objects_filter
                   [user__id (User.id (user request));
                    club_role__club__in (clubs_all obj)])
    else
      exists_ (objects_filter
                 [user__id (User.id (user request));
                  club_role__club__in (clubs_all obj);
                  club_role__privilege "REP"]).
End IsRepOrSecyAndClubMemberReadOnlyProject.

(** The permission classes of the module, indexed by the model of the objects
    they guard; [has_object_permission] dispatches on the class as the method
    call does. *)
Inductive BasePermission : Type -> Type :=
| IsRepOrReadOnlyPost : BasePermission Post.t
| IsClubMemberReadOnlyConversation : BasePermission Conversation.t
| IsSelfOrReadOnlyUser : BasePermission User.t
| IsSecyOrRepOrReadOnlyClub : BasePermission Club.t
| IsRepClubRole : BasePermission ClubRole.t
| IsRepClubMembership : BasePermission ClubMembership.t
| IsSecyOrRepOrAuthorFeedback : BasePermission Feedback.t
| IsSecyOrRepOrAuthorFeedbackReply : BasePermission FeedbackReply.t
| IsRepOrSecyAndClubMemberReadOnlyProject : BasePermission Project.t.

Definition has_object_permission {Obj : Type} (self : BasePermission Obj)
  : Request -> View -> Obj -> ORM bool :=
  match self in BasePermission T return Request -> View -> T -> ORM bool with
  | IsRepOrReadOnlyPost => IsRepOrReadOnlyPost.has_object_permission
  | IsClubMemberReadOnlyConversation =>
      IsClubMemberReadOnlyConversation.has_object_permission
  | IsSelfOrReadOnlyUser => IsSelfOrReadOnlyUser.has_object_permission
  | IsSecyOrRepOrReadOnlyClub => IsSecyOrRepOrReadOnlyClub.has_object_permission
  | IsRepClubRole => IsRepClubRole.has_object_permission
  | IsRepClubMembership => IsRepClubMembership.has_object_permission
  | IsSecyOrRepOrAuthorFeedback => IsSecyOrRepOrAuthorFeedback.has_object_permission
  | IsSecyOrRepOrAuthorFeedbackReply =>
      IsSecyOrRepOrAuthorFeedbackReply.has_object_permission
  | IsRepOrSecyAndClubMemberReadOnlyProject =>
      IsRepOrSecyAndClubMemberReadOnlyProject.has_object_permission
  end.

(** ** Vocabulary of the rules *)

(** The boolean that a call returns, and the connection it leaves. *)
Definition granted {Obj : Type} (self : BasePermission Obj) (request : Request)
  (view : View) (obj : Obj) (conn : Connection) : bool :=
  fst (has_object_permission self request view obj conn).

Definition safe (request : Request) : bool := str_in (method request) SAFE_METHODS.

(** A [ClubMembership] row links user [u] to club [c]. *)
Definition links (u : User.t) (c : Club.t) (m : ClubMembership.t) : Prop :=
  User.id (ClubMembership.user m) = User.id u /\
  Club.id (ClubRole.club (ClubMembership.club_role m)) = Club.id c.

(** [u] has a membership, of any privilege, in [c]. *)
Definition member_of (db : Database) (u : User.t) (c : Club.t) : Prop :=
  exists m, In m (club_memberships db) /\ links u c m.

(** [u] has a membership of privilege ['REP'] in [c]. *)
Definition rep_of (db : Database) (u : User.t) (c : Club.t) : Prop :=
  exists m, In m (club_memberships db) /\ links u c m /\
            ClubRole.privilege (ClubMembership.club_role m) = "REP".

Definition member_of_any (db : Database) (u : User.t) (cs : list Club.t) : Prop :=
  exists c, In c cs /\ member_of db u c.

Definition rep_of_any (db : Database) (u : User.t) (cs : list Club.t) : Prop :=
  exists c, In c cs /\ rep_of db u c.

(** The club or clubs an object belongs to: the club of a post's or a
    conversation's channel, a club itself, the club of a role, of a
    membership's role, of a feedback, of a reply's parent feedback, and the
    clubs of a project.  A user belongs to none. *)
Definition clubs_of {Obj : Type} (self : BasePermission Obj)
  : Obj -> Database -> list Club.t :=
  match self in BasePermission T return T -> Database -> list Club.t with
  | IsRepOrReadOnlyPost => fun obj _ => [Channel.club (Post.channel obj)]
  | IsClubMemberReadOnlyConversation =>
      fun obj _ => [Channel.club (Conversation.channel obj)]
  | IsSelfOrReadOnlyUser => fun _ _ => []
  | IsSecyOrRepOrReadOnlyClub => fun obj _ => [obj]
  | IsRepClubRole => fun obj _ => [ClubRole.club obj]
  | IsRepClubMembership =>
      fun obj _ => [ClubRole.club (ClubMembership.club_role obj)]
  | IsSecyOrRepOrAuthorFeedback => fun obj _ => [Feedback.club obj]
  | IsSecyOrRepOrAuthorFeedbackReply =>
      fun obj _ => [Feedback.club (FeedbackReply.parent obj)]
  | IsRepOrSecyAndClubMemberReadOnlyProject => clubs_all
  end.

(** A computation is read-only when it returns the database it was given. *)
Definition read_only {A : Type} (m : ORM A) : Prop :=
  forall conn, database (snd (m conn)) = database conn.

(** The classes that guard a club itself, and the comparison
    [obj == request.user] of the class that guards users. *)
Definition club_level {Obj : Type} (self : BasePermission Obj) : bool :=
  match self with
  | IsSecyOrRepOrReadOnlyClub => true
  | _ => false
  end.

Definition is_self {Obj : Type} (self : BasePermission Obj) : Obj -> User.t -> bool :=
  match self in BasePermission T return T -> User.t -> bool with
  | IsSelfOrReadOnlyUser => fun obj u => user_eq obj u
  | _ => fun _ _ => false
  end.

(** The [ClubMembership] rows of a database that link [u] to [c]. *)
Definition linking_rows (db : Database) (u : User.t) (c : Club.t)
  : list ClubMembership.t :=
  List.filter
    (fun m => (User.id (ClubMembership.user m) =? User.id u) &&
              club_eq (ClubRole.club (ClubMembership.club_role m)) c)
    (club_memberships db).

(** The database with its [ClubMembership] table replaced; every other table
    is kept. *)
Definition set_club_memberships (ms : list ClubMembership.t) (db : Database)
  : Database :=
  {| users := users db;
     clubs := clubs db;
     channels := channels db;
     posts := posts db;
     conversations := conversations db;
     club_roles := club_roles db;
     club_memberships := ms;
     feedbacks := feedbacks db;
     feedback_replies := feedback_replies db;
     projects := projects db;
     project_clubs := project_clubs db |}.

(** The disjunction of the existence checks of a list of querysets. *)
Definition any_has_rows (qss : list QuerySet) (db : Database) : bool :=
  existsb (fun qs => has_rows qs db) qss.

(** The reading rule in its simplest form: a read is granted, or the class
    restricts reads to the members of the object's club and then grants
    exactly when a membership of any privilege links the user to it. *)
Definition reads_open_or_members_only {Obj : Type} (self : BasePermission Obj)
  (request : Request) (view : View) (obj : Obj) (conn : Connection) : Prop :=
  granted self request view obj conn = true \/
  (granted self request view obj conn = true <->
   member_of_any (database conn) (user request)
     (clubs_of self obj (database conn))).

(** The writing rule in its simplest form: a grant implies a 'REP' membership
    in the object's club or, on a club, the superuser flag. *)
Definition writes_for_rep_or_secretary {Obj : Type} (self : BasePermission Obj)
  (request : Request) (view : View) (obj : Obj) (conn : Connection) : Prop :=
  granted self request view obj conn = true ->
  rep_of_any (database conn) (user request) (clubs_of self obj (database conn)) \/
  (club_level self = true /\ is_secretary (user request) = true).

(** The primary key of the object a class guards, and, for the feedback
    classes, the primary key of the author they compare with the user. *)
Definition pk {Obj : Type} (self : BasePermission Obj) : Obj -> Z :=
  match self in BasePermission T return T -> Z with
  | IsRepOrReadOnlyPost => Post.id
  | IsClubMemberReadOnlyConversation => Conversation.id
  | IsSelfOrReadOnlyUser => User.id
  | IsSecyOrRepOrReadOnlyClub => Club.id
  | IsRepClubRole => ClubRole.id
  | IsRepClubMembership => ClubMembership.id
  | IsSecyOrRepOrAuthorFeedback => Feedback.id
  | IsSecyOrRepOrAuthorFeedbackReply => FeedbackReply.id
  | IsRepOrSecyAndClubMemberReadOnlyProject => Project.id
  end.

Definition author_id {Obj : Type} (self : BasePermission Obj) : Obj -> option Z :=
  match self in BasePermission T return T -> option Z with
  | IsSecyOrRepOrAuthorFeedback => fun obj => Some (User.id (Feedback.author obj))
  | IsSecyOrRepOrAuthorFeedbackReply =>
      fun obj => Some (User.id (Feedback.author (FeedbackReply.parent obj)))
  | _ => fun _ => None
  end.

(** Two runs with the same request, on objects of the same identity and the
    same clubs, on databases with the same rows linking the user to those
    clubs, give the same answer. *)
Definition decided_by_identity_clubs_and_rows {Obj : Type}
  (self : BasePermission Obj) (request : Request) (view : View)
  (obj1 obj2 : Obj) (conn1 conn2 : Connection) : Prop :=
  pk self obj1 = pk self obj2 ->
  clubs_of self obj1 (database conn1) = clubs_of self obj2 (database conn2) ->
  (forall c, In c (clubs_of self obj1 (database conn1)) ->
             linking_rows (database conn1) (user request) c =
             linking_rows (database conn2) (user request) c) ->
  granted self request view obj1 conn1 = granted self request view obj2 conn2.

(** The shape "a disjunction of one or two membership-existence checks and
    nothing else". *)
Definition only_membership_checks {Obj : Type} (self : BasePermission Obj)
  (request : Request) (view : View) (obj : Obj) : Prop :=
  exists qss : list QuerySet,
    (1 <= List.length qss <= 2)%nat /\
    forall conn, granted self request view obj conn =
                 any_has_rows qss (database conn).

(** The membership-existence checks that decide a request whose method is
    not safe, class by class: the 'REP' check on the object's club for a post,
    a role, a membership and, unless the method is DELETE, a club; the 'REP'
    check on the project's clubs for a project; none for a conversation, a
    user, a feedback and a feedback reply. *)
Definition write_checks {Obj : Type} (self : BasePermission Obj)
  (request : Request) : Obj -> list QuerySet :=
  match self in BasePermission T return T -> list QuerySet with
  | IsRepOrReadOnlyPost =>
      fun obj => [[user__id (User.id (user request));
                   club_role__club (Channel.club (Post.channel obj));
                   club_role__privilege "REP"]]
  | IsSecyOrRepOrReadOnlyClub =>
      fun obj => if String.eqb (method request) "DELETE" then []
                 else [[user__id (User.id (user request));
                        club_role__club obj;
                        club_role__privilege "REP"]]
  | IsRepClubRole =>
      fun obj => [[user__id (User.id (user request));
                   club_role__club (ClubRole.club obj);
                   club_role__privilege "REP"]]
  | IsRepClubMembership =>
      fun obj => [[user__id (User.id (user request));
                   club_role__club (ClubRole.club (ClubMembership.club_role obj));
                   club_role__privilege "REP"]]
  | IsRepOrSecyAndClubMemberReadOnlyProject =>
      fun obj => [[user__id (User.id (user request));
                   club_role__club__in (clubs_all obj);
                   club_role__privilege "REP"]]
  | IsClubMemberReadOnlyConversation => fun _ => []
  | IsSelfOrReadOnlyUser => fun _ => []
  | IsSecyOrRepOrAuthorFeedback => fun _ => []
  | IsSecyOrRepOrAuthorFeedbackReply => fun _ => []
  end.

(** ** Sample data *)

Module Sample.

Definition alice : User.t := {| User.id := 1; User.is_superuser := false |}.
Definition secy : User.t := {| User.id := 2; User.is_superuser := true |}.
Definition bob : User.t := {| User.id := 3; User.is_superuser := false |}.

Definition chess : Club.t := {| Club.id := 10 |}.
Definition drama : Club.t := {| Club.id := 11 |}.

Definition chess_member : ClubRole.t :=
  {| ClubRole.id := 100; ClubRole.club := chess; ClubRole.privilege := "MEM" |}.
Definition chess_rep : ClubRole.t :=
  {| ClubRole.id := 101; ClubRole.club := chess; ClubRole.privilege := "REP" |}.

Definition general : Channel.t := {| Channel.id := 20; Channel.club := chess |}.
Definition hello : Post.t := {| Post.id := 30; Post.channel := general |}.
Definition chat : Conversation.t :=
  {| Conversation.id := 40; Conversation.channel := general |}.
Definition complaint : Feedback.t :=
  {| Feedback.id := 50; Feedback.author := alice; Feedback.club := chess |}.
Definition answer : FeedbackReply.t :=
  {| FeedbackReply.id := 60; FeedbackReply.parent := complaint |}.
Definition tournament : Project.t := {| Project.id := 70 |}.

Definition alice_is_member : ClubMembership.t :=
  {| ClubMembership.id := 1000; ClubMembership.user := alice;
     ClubMembership.club_role := chess_member |}.
Definition bob_is_rep : ClubMembership.t :=
  {| ClubMembership.id := 1001; ClubMembership.user := bob;
     ClubMembership.club_role := chess_rep |}.

Definition empty_db : Database :=
  {| users := []; clubs := []; channels := []; posts := [];
     conversations := []; club_roles := []; club_memberships := [];
     feedbacks := []; feedback_replies := []; projects := [];
     project_clubs := [] |}.

(** Alice is a plain member of the chess club, Bob its representative; the
    tournament is a project of the chess club. *)
Definition db : Database :=
  {| users := [alice; secy; bob]; clubs := [chess; drama];
     channels := [general]; posts := [hello]; conversations := [chat];
     club_roles := [chess_member; chess_rep];
     club_memberships := [alice_is_member; bob_is_rep];
     feedbacks := [complaint]; feedback_replies := [answer];
     projects := [tournament]; project_clubs := [(tournament, chess)] |}.

(** The same database after the complaint was reassigned to Bob. *)
Definition complaint_of_bob : Feedback.t :=
  {| Feedback.id := 50; Feedback.author := bob; Feedback.club := chess |}.
Definition db_reassigned : Database :=
  {| users := users db; clubs := clubs db; channels := channels db;
     posts := posts db; conversations := conversations db;
     club_roles := club_roles db; club_memberships := club_memberships db;
     feedbacks := [complaint_of_bob];
     feedback_replies := feedback_replies db; projects := projects db;
     project_clubs := project_clubs db |}.

(** The same database after the secretary joined the drama club. *)
Definition drama_member : ClubRole.t :=
  {| ClubRole.id := 102; ClubRole.club := drama; ClubRole.privilege := "MEM" |}.
Definition secy_in_drama : ClubMembership.t :=
  {| ClubMembership.id := 1002; ClubMembership.user := secy;
     ClubMembership.club_role := drama_member |}.
Definition db_more : Database :=
  set_club_memberships (secy_in_drama :: club_memberships db) db.

Definition connect (d : Database) : Connection :=
  {| database := d; queries := [] |}.

Definition GET (u : User.t) : Request := {| method := "GET"; user := u |}.
Definition PUT (u : User.t) : Request := {| method := "PUT"; user := u |}.
Definition DELETE (u : User.t) : Request := {| method := "DELETE"; user := u |}.

End Sample.

(** ** The queries *)

Lemma exists_spec (qs : QuerySet) (conn : Connection) :
  fst (exists_ qs conn) = true <->
  exists m, In m (club_memberships (database conn)) /\
            forallb (lookup_matches (database conn) m) qs = true.
Proof.
  unfold exists_, has_rows, rows; cbn [fst].
  destruct (List.filter _ _) as [|m ms] eqn:E.
  - split; [discriminate|].
    intros (m & Hin & Hm).
    assert (Hf : In m (List.filter
                  (fun m => forallb (lookup_matches (database conn) m) qs)
                  (club_memberships (database conn))))
      by (apply filter_In; auto).
    rewrite E in Hf. destruct Hf.
  - split; [intros _|reflexivity].
    assert (Hf : In m (List.filter
                  (fun m => forallb (lookup_matches (database conn) m) qs)
                  (club_memberships (database conn))))
      by (rewrite E; left; reflexivity).
    apply filter_In in Hf. exists m. exact Hf.
Qed.

Lemma exists_database (qs : QuerySet) (conn : Connection) :
  database (snd (exists_ qs conn)) = database conn.
Proof. reflexivity. Qed.

Lemma club_in_spec (c : Club.t) (cs : list Club.t) :
  existsb (club_eq c) cs = true <-> exists c', In c' cs /\ Club.id c = Club.id c'.
Proof.
  rewrite existsb_exists. unfold club_eq.
  split; intros (c' & Hin & H); exists c'; split; auto; now apply Z.eqb_eq.
Qed.

(** The three-lookup query of the representative. *)
Lemma rep_query_spec (u : User.t) (c : Club.t) (conn : Connection) :
  fst (exists_ (objects_filter
                  [user__id (User.id u); club_role__club c;
                   club_role__privilege "REP"]) conn) = true <->
  rep_of (database conn) u c.
Proof.
  rewrite exists_spec. unfold rep_of, links, objects_filter.
  split; intros (m & Hin & H); exists m; split; auto.
  - cbn in H. unfold club_eq in H.
    rewrite !andb_true_iff, !Z.eqb_eq, String.eqb_eq in H. tauto.
  - cbn. unfold club_eq.
    rewrite !andb_true_iff, !Z.eqb_eq, String.eqb_eq. tauto.
Qed.

(** The two-lookup query of the member. *)
Lemma member_query_spec (u : User.t) (c : Club.t) (conn : Connection) :
  fst (exists_ (objects_filter
                  [user__id (User.id u); club_role__club c]) conn) = true <->
  member_of (database conn) u c.
Proof.
  rewrite exists_spec. unfold member_of, links, objects_filter.
  split; intros (m & Hin & H); exists m; split; auto.
  - cbn in H. unfold club_eq in H.
    rewrite !andb_true_iff, !Z.eqb_eq in H. tauto.
  - cbn. unfold club_eq.
    rewrite !andb_true_iff, !Z.eqb_eq. tauto.
Qed.

(** The queries of the project class, with the subquery [obj.clubs.all()]. *)
Lemma project_member_query_spec (u : User.t) (obj : Project.t) (conn : Connection) :
  fst (exists_ (objects_filter
                  [user__id (User.id u); club_role__club__in (clubs_all obj)])
               conn) = true <->
  member_of_any (database conn) u (clubs_all obj (database conn)).
Proof.
  rewrite exists_spec. unfold member_of_any, member_of, links, objects_filter.
  split.
  - intros (m & Hin & H). cbn in H.
    rewrite !andb_true_iff, Z.eqb_eq, club_in_spec in H.
    destruct H as (Hu & (c & Hc & Hid) & _).
    exists c. split; [exact Hc|]. exists m. auto.
  - intros (c & Hc & m & Hin & Hu & Hid). exists m. split; [exact Hin|].
    cbn. rewrite !andb_true_iff, Z.eqb_eq, club_in_spec.
    repeat split; auto. exists c. auto.
Qed.

Lemma project_rep_query_spec (u : User.t) (obj : Project.t) (conn : Connection) :
  fst (exists_ (objects_filter
                  [user__id (User.id u); club_role__club__in (clubs_all obj);
                   club_role__privilege "REP"]) conn) = true <->
  rep_of_any (database conn) u (clubs_all obj (database conn)).
Proof.
  rewrite exists_spec. unfold rep_of_any, rep_of, links, objects_filter.
  split.
  - intros (m & Hin & H). cbn in H.
    rewrite !andb_true_iff, Z.eqb_eq, club_in_spec, String.eqb_eq in H.
    destruct H as (Hu & (c & Hc & Hid) & Hp & _).
    exists c. split; [exact Hc|]. exists m. auto.
  - intros (c & Hc & m & Hin & (Hu & Hid) & Hp). exists m. split; [exact Hin|].
    cbn. rewrite !andb_true_iff, Z.eqb_eq, club_in_spec, String.eqb_eq.
    repeat split; auto. exists c. auto.
Qed.

Lemma rep_of_any_singleton (db : Database) (u : User.t) (c : Club.t) :
  rep_of_any db u [c] <-> rep_of db u c.
Proof.
  unfold rep_of_any. split.
  - intros (c' & [<-|[]] & H). exact H.
  - intros H. exists c. split; [left; reflexivity|exact H].
Qed.

Lemma member_of_any_singleton (db : Database) (u : User.t) (c : Club.t) :
  member_of_any db u [c] <-> member_of db u c.
Proof.
  unfold member_of_any. split.
  - intros (c' & [<-|[]] & H). exact H.
  - intros H. exists c. split; [left; reflexivity|exact H].
Qed.

Lemma rep_is_member (db : Database) (u : User.t) (c : Club.t) :
  rep_of db u c -> member_of db u c.
Proof. intros (m & Hin & Hl & _). exists m. auto. Qed.

(** ** What each class grants *)

Section Classes.

Variables (request : Request) (view : View) (conn : Connection).

Let u := user request.
Let db := database conn.

Lemma post_granted (obj : Post.t) :
  granted IsRepOrReadOnlyPost request view obj conn = true <->
  safe request = true \/ rep_of db u (Channel.club (Post.channel obj)).
Proof.
  unfold granted, has_object_permission,
    IsRepOrReadOnlyPost.has_object_permission, safe.
  destruct (str_in (method request) SAFE_METHODS).
  - cbn. tauto.
  - rewrite rep_query_spec. split; [tauto|]. intros [H|H]; [discriminate|exact H].
Qed.

Lemma conversation_granted (obj : Conversation.t) :
  granted IsClubMemberReadOnlyConversation request view obj conn = true <->
  safe request = true /\ member_of db u (Channel.club (Conversation.channel obj)).
Proof.
  unfold granted, has_object_permission,
    IsClubMemberReadOnlyConversation.has_object_permission, safe.
  destruct (str_in (method request) SAFE_METHODS).
  - rewrite member_query_spec. tauto.
  - cbn. split; [discriminate|]. intros [H _]. discriminate.
Qed.

Lemma user_granted (obj : User.t) :
  granted IsSelfOrReadOnlyUser request view obj conn =
  safe request || user_eq obj u.
Proof.
  unfold granted, has_object_permission,
    IsSelfOrReadOnlyUser.has_object_permission, safe.
  destruct (str_in (method request) SAFE_METHODS); reflexivity.
Qed.

Lemma club_granted (obj : Club.t) :
  granted IsSecyOrRepOrReadOnlyClub request view obj conn = true <->
  safe request = true \/ is_secretary u = true \/
  (method request <> "DELETE" /\ rep_of db u obj).
Proof.
  unfold granted, has_object_permission,
    IsSecyOrRepOrReadOnlyClub.has_object_permission, safe.
  destruct (str_in (method request) SAFE_METHODS); [cbn; tauto|].
  destruct (String.eqb_spec (method request) "DELETE") as [Hd|Hd].
  - cbn. fold u. split; [tauto|].
    intros [H|[H|[H _]]]; [discriminate|exact H|contradiction].
  - fold u. destruct (is_secretary u); [cbn; tauto|].
    rewrite rep_query_spec. fold db. split; [tauto|].
    intros [H|[H|[_ H]]]; [discriminate|discriminate|exact H].
Qed.

Lemma clubrole_granted (obj : ClubRole.t) :
  granted IsRepClubRole request view obj conn = true <->
  rep_of db u (ClubRole.club obj).
Proof.
  unfold granted, has_object_permission, IsRepClubRole.has_object_permission.
  apply rep_query_spec.
Qed.

Lemma clubmembership_granted (obj : ClubMembership.t) :
  granted IsRepClubMembership request view obj conn = true <->
  rep_of db u (ClubRole.club (ClubMembership.club_role obj)).
Proof.
  unfold granted, has_object_permission,
    IsRepClubMembership.has_object_permission.
  apply rep_query_spec.
Qed.

Lemma feedback_granted (obj : Feedback.t) :
  granted IsSecyOrRepOrAuthorFeedback request view obj conn = true <->
  safe request = true /\
  (User.id (Feedback.author obj) = User.id u \/ is_secretary u = true \/
   rep_of db u (Feedback.club obj)).
Proof.
  unfold granted, has_object_permission,
    IsSecyOrRepOrAuthorFeedback.has_object_permission, safe, user_eq.
  destruct (str_in (method request) SAFE_METHODS).
  - fold u. destruct (Z.eqb_spec (User.id (Feedback.author obj)) (User.id u)).
    + cbn. tauto.
    + destruct (is_secretary u); [cbn; tauto|].
      rewrite rep_query_spec. fold db. split; [tauto|].
      intros [_ [H|[H|H]]]; [contradiction|discriminate|exact H].
  - cbn. split; [discriminate|]. intros [H _]. discriminate.
Qed.

Lemma reply_granted (obj : FeedbackReply.t) :
  granted IsSecyOrRepOrAuthorFeedbackReply request view obj conn = true <->
  safe request = true /\
  (User.id (Feedback.author (FeedbackReply.parent obj)) = User.id u \/
   is_secretary u = true \/
   rep_of db u (Feedback.club (FeedbackReply.parent obj))).
Proof.
  unfold granted, has_object_permission,
    IsSecyOrRepOrAuthorFeedbackReply.has_object_permission, safe, user_eq.
  destruct (str_in (method request) SAFE_METHODS).
  - fold u.
    destruct (Z.eqb_spec (User.id (Feedback.author (FeedbackReply.parent obj)))
                (User.id u)).
    + cbn. tauto.
    + destruct (is_secretary u); [cbn; tauto|].
      rewrite rep_query_spec. fold db. split; [tauto|].
      intros [_ [H|[H|H]]]; [contradiction|discriminate|exact H].
  - cbn. split; [discriminate|]. intros [H _]. discriminate.
Qed.

Lemma project_granted (obj : Project.t) :
  granted IsRepOrSecyAndClubMemberReadOnlyProject request view obj conn = true <->
  (safe request = true /\
   (is_secretary u = true \/ member_of_any db u (clubs_all obj db))) \/
  (safe request = false /\ rep_of_any db u (clubs_all obj db)).
Proof.
  unfold granted, has_object_permission,
    IsRepOrSecyAndClubMemberReadOnlyProject.has_object_permission, safe.
  destruct (str_in (method request) SAFE_METHODS).
  - fold u. destruct (is_secretary u).
    + cbn. tauto.
    + rewrite project_member_query_spec. fold db. split; [tauto|].
      intros [[_ [H|H]]|[H _]]; [discriminate|exact H|discriminate].
  - rewrite project_rep_query_spec. fold db. split; [tauto|].
    intros [[H _]|[_ H]]; [discriminate|exact H].
Qed.

End Classes.

(** ** The classes on the sample data *)

Example alice_reads_chat :
  granted IsClubMemberReadOnlyConversation (Sample.GET Sample.alice) APIView
    Sample.chat (Sample.connect Sample.db) = true.
Proof. reflexivity. Qed.

Example secy_does_not_read_chat :
  granted IsClubMemberReadOnlyConversation (Sample.GET Sample.secy) APIView
    Sample.chat (Sample.connect Sample.db) = false.
Proof. reflexivity. Qed.

Example alice_does_not_edit_post :
  granted IsRepOrReadOnlyPost (Sample.PUT Sample.alice) APIView Sample.hello
    (Sample.connect Sample.db) = false.
Proof. reflexivity. Qed.

Example bob_edits_post :
  has_object_permission IsRepOrReadOnlyPost (Sample.PUT Sample.bob) APIView
    Sample.hello (Sample.connect Sample.db) =
  (true,
   {| database := Sample.db;
      queries := [[user__id 3; club_role__club Sample.chess;
                   club_role__privilege "REP"]] |}).
Proof. reflexivity. Qed.

Example bob_updates_but_does_not_delete_club :
  granted IsSecyOrRepOrReadOnlyClub (Sample.PUT Sample.bob) APIView
    Sample.chess (Sample.connect Sample.db) = true /\
  granted IsSecyOrRepOrReadOnlyClub (Sample.DELETE Sample.bob) APIView
    Sample.chess (Sample.connect Sample.db) = false /\
  granted IsSecyOrRepOrReadOnlyClub (Sample.DELETE Sample.secy) APIView
    Sample.chess (Sample.connect Sample.db) = true.
Proof. repeat split. Qed.

Example secy_does_not_read_role :
  granted IsRepClubRole (Sample.GET Sample.secy) APIView Sample.chess_rep
    (Sample.connect Sample.db) = false.
Proof. reflexivity. Qed.

Example feedback_readers :
  granted IsSecyOrRepOrAuthorFeedback (Sample.GET Sample.alice) APIView
    Sample.complaint (Sample.connect Sample.db) = true /\
  granted IsSecyOrRepOrAuthorFeedbackReply (Sample.GET Sample.bob) APIView
    Sample.answer (Sample.connect Sample.db) = true /\
  granted IsSecyOrRepOrAuthorFeedback (Sample.PUT Sample.alice) APIView
    Sample.complaint (Sample.connect Sample.db) = false.
Proof. repeat split. Qed.

Example project_on_sample :
  granted IsRepOrSecyAndClubMemberReadOnlyProject (Sample.GET Sample.alice)
    APIView Sample.tournament (Sample.connect Sample.db) = true /\
  granted IsRepOrSecyAndClubMemberReadOnlyProject (Sample.PUT Sample.alice)
    APIView Sample.tournament (Sample.connect Sample.db) = false /\
  granted IsRepOrSecyAndClubMemberReadOnlyProject (Sample.PUT Sample.bob)
    APIView Sample.tournament (Sample.connect Sample.db) = true /\
  granted IsRepOrSecyAndClubMemberReadOnlyProject (Sample.PUT Sample.secy)
    APIView Sample.tournament (Sample.connect Sample.db) = false.
Proof. repeat split. Qed.

(** ** Reads only: the database is left as it was *)

Lemma ret_read_only {A : Type} (a : A) : read_only (ret a).
Proof. intros conn. reflexivity. Qed.

Lemma exists_read_only (qs : QuerySet) : read_only (exists_ qs).
Proof. intros conn. reflexivity. Qed.

Lemma if_read_only {A : Type} (b : bool) (m1 m2 : ORM A) :
  read_only m1 -> read_only m2 -> read_only (if b then m1 else m2).
Proof. destruct b; auto. Qed.

Create HintDb orm.

#[local] Hint Resolve ret_read_only exists_read_only if_read_only : orm.

Lemma has_object_permission_read_only {Obj : Type} (self : BasePermission Obj)
  (request : Request) (view : View) (obj : Obj) :
  read_only (has_object_permission self request view obj).
Proof.
  destruct self; cbn [has_object_permission];
    unfold IsRepOrReadOnlyPost.has_object_permission,
      IsClubMemberReadOnlyConversation.has_object_permission,
      IsSelfOrReadOnlyUser.has_object_permission,
      IsSecyOrRepOrReadOnlyClub.has_object_permission,
      IsRepClubRole.has_object_permission,
      IsRepClubMembership.has_object_permission,
      IsSecyOrRepOrAuthorFeedback.has_object_permission,
      IsSecyOrRepOrAuthorFeedbackReply.has_object_permission,
      IsRepOrSecyAndClubMemberReadOnlyProject.has_object_permission;
    auto 6 with orm.
Qed.

(** ** The rules of the specification *)

(** C3: a feedback, and a reply to a feedback, is readable exactly by the
    author of the feedback, a secretary, or a holder of a 'REP' membership in
    the feedback's club; with a method that is not safe the answer is False
    for every user. *)
Theorem feedback_read_only_for_author_secretary_rep :
  forall (request : Request) (view : View) (conn : Connection),
    (forall obj : Feedback.t,
        (safe request = true ->
         (granted IsSecyOrRepOrAuthorFeedback request view obj conn = true <->
          User.id (Feedback.author obj) = User.id (user request) \/
          is_secretary (user request) = true \/
          rep_of (database conn) (user request) (Feedback.club obj))) /\
        (safe request = false ->
         granted IsSecyOrRepOrAuthorFeedback request view obj conn = false)) /\
    (forall obj : FeedbackReply.t,
        (safe request = true ->
         (granted IsSecyOrRepOrAuthorFeedbackReply request view obj conn = true <->
          User.id (Feedback.author (FeedbackReply.parent obj)) =
            User.id (user request) \/
          is_secretary (user request) = true \/
          rep_of (database conn) (user request)
            (Feedback.club (FeedbackReply.parent obj)))) /\
        (safe request = false ->
         granted IsSecyOrRepOrAuthorFeedbackReply request view obj conn = false)).
Proof.
  intros request view conn. split; intros obj.
  - pose proof (feedback_granted request view conn obj) as H. cbv zeta in H.
    split; intros Hs.
    + rewrite H. tauto.
    + apply not_true_is_false. intros Hg. apply H in Hg.
      destruct Hg as [Hg _]. congruence.
  - pose proof (reply_granted request view conn obj) as H. cbv zeta in H.
    split; intros Hs.
    + rewrite H. tauto.
    + apply not_true_is_false. intros Hg. apply H in Hg.
      destruct Hg as [Hg _]. congruence.
Qed.

(** C4: a project is readable exactly by a secretary or a member (of any
    privilege) of at least one of the project's clubs, and with a method that
    is not safe it is granted exactly to a holder of a 'REP' membership in at
    least one of those clubs. *)
Theorem project_read_by_members_written_by_reps :
  forall (request : Request) (view : View) (obj : Project.t) (conn : Connection),
    (safe request = true ->
     (granted IsRepOrSecyAndClubMemberReadOnlyProject request view obj conn = true <->
      is_secretary (user request) = true \/
      member_of_any (database conn) (user request)
        (clubs_all obj (database conn)))) /\
    (safe request = false ->
     (granted IsRepOrSecyAndClubMemberReadOnlyProject request view obj conn = true <->
      rep_of_any (database conn) (user request)
        (clubs_all obj (database conn)))).
Proof.
  intros request view obj conn.
  pose proof (project_granted request view conn obj) as H. cbv zeta in H.
  split; intros Hs; rewrite H; split; try tauto.
  - intros [[_ H1]|[H1 _]]; [exact H1|congruence].
  - intros [[H1 _]|[_ H1]]; [congruence|exact H1].
Qed.

(** C7: evaluating [has_object_permission] of any class leaves the database
    as it was: every table of the connection's database is the same after the
    call as before it. *)
Theorem has_object_permission_preserves_database :
  forall (Obj : Type) (self : BasePermission Obj) (request : Request)
         (view : View) (obj : Obj) (conn : Connection),
    database (snd (has_object_permission self request view obj conn)) =
    database conn.
Proof.
  intros Obj self request view obj conn.
  apply has_object_permission_read_only.
Qed.

(** C9: on a conversation, a request whose method is not safe is denied to
    every user, a secretary and a representative included, and no query is
    run: the connection, with its query log, is returned as it was. *)
Theorem conversation_write_denied_without_query :
  forall (request : Request) (view : View) (obj : Conversation.t)
         (conn : Connection),
    safe request = false ->
    has_object_permission IsClubMemberReadOnlyConversation request view obj conn =
    (false, conn).
Proof.
  intros request view obj conn Hs.
  cbn [has_object_permission].
  unfold IsClubMemberReadOnlyConversation.has_object_permission.
  unfold safe in Hs. rewrite Hs. reflexivity.
Qed.

(** C10: a role and a membership object are accessible, with every method,
    exactly to a holder of a 'REP' membership in the club concerned; the
    superuser flag of the requesting user is not consulted, so that a
    secretary without such a membership is denied, reads included. *)
Theorem role_and_membership_for_reps_only :
  forall (request : Request) (view : View) (conn : Connection),
    (forall obj : ClubRole.t,
        (granted IsRepClubRole request view obj conn = true <->
         rep_of (database conn) (user request) (ClubRole.club obj)) /\
        (forall b : bool,
            granted IsRepClubRole
              {| method := method request;
                 user := {| User.id := User.id (user request);
                            User.is_superuser := b |} |} view obj conn =
            granted IsRepClubRole request view obj conn) /\
        (is_secretary (user request) = true ->
         ~ rep_of (database conn) (user request) (ClubRole.club obj) ->
         granted IsRepClubRole request view obj conn = false)) /\
    (forall obj : ClubMembership.t,
        (granted IsRepClubMembership request view obj conn = true <->
         rep_of (database conn) (user request)
           (ClubRole.club (ClubMembership.club_role obj))) /\
        (forall b : bool,
            granted IsRepClubMembership
              {| method := method request;
                 user := {| User.id := User.id (user request);
                            User.is_superuser := b |} |} view obj conn =
            granted IsRepClubMembership request view obj conn) /\
        (is_secretary (user request) = true ->
         ~ rep_of (database conn) (user request)
             (ClubRole.club (ClubMembership.club_role obj)) ->
         granted IsRepClubMembership request view obj conn = false)).
Proof.
  intros request view conn. split; intros obj.
  - pose proof (clubrole_granted request view conn obj) as H. cbv zeta in H.
    split; [exact H|]. split.
    + intros b. reflexivity.
    + intros _ Hn. apply not_true_is_false. intros Hg. apply Hn, H, Hg.
  - pose proof (clubmembership_granted request view conn obj) as H.
    cbv zeta in H. split; [exact H|]. split.
    + intros b. reflexivity.
    + intros _ Hn. apply not_true_is_false. intros Hg. apply Hn, H, Hg.
Qed.

Lemma conversation_write_denied_without_query_witness :
  safe (Sample.DELETE Sample.secy) = false /\
  has_object_permission IsClubMemberReadOnlyConversation
    (Sample.DELETE Sample.secy) APIView Sample.chat (Sample.connect Sample.db) =
  (false, Sample.connect Sample.db).
Proof.
  split; [reflexivity|].
  apply (conversation_write_denied_without_query
           (Sample.DELETE Sample.secy) APIView Sample.chat
           (Sample.connect Sample.db)).
  reflexivity.
Defined.

(** C1, as stated, fails: Alice holds a 'MEM' membership in the chess club,
    yet her GET of a role of that club is refused by [IsRepClubRole]; the
    answer is neither True nor "True exactly when a membership exists". *)
Lemma member_cannot_read_role :
  safe (Sample.GET Sample.alice) = true /\
  ~ reads_open_or_members_only IsRepClubRole (Sample.GET Sample.alice) APIView
      Sample.chess_member (Sample.connect Sample.db).
Proof.
  split; [reflexivity|].
  unfold reads_open_or_members_only.
  assert (Hg : granted IsRepClubRole (Sample.GET Sample.alice) APIView
                 Sample.chess_member (Sample.connect Sample.db) = false)
    by reflexivity.
  rewrite Hg. intros [H|H]; [discriminate|].
  assert (Hm : member_of_any Sample.db Sample.alice [Sample.chess]).
  { exists Sample.chess. split; [left; reflexivity|].
    exists Sample.alice_is_member. split; [left; reflexivity|].
    split; reflexivity. }
  apply H in Hm. discriminate.
Qed.

(** C1, amended: with a safe method, the post, user and club classes grant;
    the conversation class grants exactly to a member (of any privilege) of
    the club of the conversation's channel; the role and membership classes
    grant exactly to a holder of a 'REP' membership in the club; the feedback
    classes grant exactly to the author of the feedback, a secretary or a
    holder of a 'REP' membership in its club; the project class grants
    exactly to a secretary or a member of one of the project's clubs. *)
Theorem read_rules :
  forall (request : Request) (view : View) (conn : Connection),
    safe request = true ->
    (forall obj, granted IsRepOrReadOnlyPost request view obj conn = true) /\
    (forall obj, granted IsSelfOrReadOnlyUser request view obj conn = true) /\
    (forall obj, granted IsSecyOrRepOrReadOnlyClub request view obj conn = true) /\
    (forall obj,
        granted IsClubMemberReadOnlyConversation request view obj conn = true <->
        member_of (database conn) (user request)
          (Channel.club (Conversation.channel obj))) /\
    (forall obj,
        granted IsRepClubRole request view obj conn = true <->
        rep_of (database conn) (user request) (ClubRole.club obj)) /\
    (forall obj,
        granted IsRepClubMembership request view obj conn = true <->
        rep_of (database conn) (user request)
          (ClubRole.club (ClubMembership.club_role obj))) /\
    (forall obj,
        granted IsSecyOrRepOrAuthorFeedback request view obj conn = true <->
        User.id (Feedback.author obj) = User.id (user request) \/
        is_secretary (user request) = true \/
        rep_of (database conn) (user request) (Feedback.club obj)) /\
    (forall obj,
        granted IsSecyOrRepOrAuthorFeedbackReply request view obj conn = true <->
        User.id (Feedback.author (FeedbackReply.parent obj)) =
          User.id (user request) \/
        is_secretary (user request) = true \/
        rep_of (database conn) (user request)
          (Feedback.club (FeedbackReply.parent obj))) /\
    (forall obj,
        granted IsRepOrSecyAndClubMemberReadOnlyProject request view obj conn = true <->
        is_secretary (user request) = true \/
        member_of_any (database conn) (user request)
          (clubs_all obj (database conn))).
Proof.
  intros request view conn Hs.
  repeat match goal with |- _ /\ _ => split end; intros obj.
  - apply (post_granted request view conn obj). left. exact Hs.
  - rewrite user_granted, Hs. reflexivity.
  - apply (club_granted request view conn obj). left. exact Hs.
  - pose proof (conversation_granted request view conn obj) as H.
    cbv zeta in H. rewrite H. tauto.
  - apply (clubrole_granted request view conn obj).
  - apply (clubmembership_granted request view conn obj).
  - pose proof (feedback_granted request view conn obj) as H.
    cbv zeta in H. rewrite H. tauto.
  - pose proof (reply_granted request view conn obj) as H.
    cbv zeta in H. rewrite H. tauto.
  - pose proof (project_granted request view conn obj) as H.
    cbv zeta in H. rewrite H. split; [|tauto].
    intros [[_ H1]|[H1 _]]; [exact H1|congruence].
Qed.

Lemma read_rules_witness :
  safe (Sample.GET Sample.alice) = true /\
  granted IsRepOrReadOnlyPost (Sample.GET Sample.alice) APIView Sample.hello
    (Sample.connect Sample.db) = true.
Proof.
  split; [reflexivity|].
  exact (proj1 (read_rules (Sample.GET Sample.alice) APIView
                  (Sample.connect Sample.db) eq_refl) Sample.hello).
Defined.

(** C2, as stated, fails: Alice, who is no secretary and holds no membership
    at all, is granted a PUT on her own user object by
    [IsSelfOrReadOnlyUser]. *)
Lemma user_edits_self_without_role :
  safe (Sample.PUT Sample.alice) = false /\
  ~ writes_for_rep_or_secretary IsSelfOrReadOnlyUser (Sample.PUT Sample.alice)
      APIView Sample.alice (Sample.connect Sample.empty_db).
Proof.
  split; [reflexivity|].
  unfold writes_for_rep_or_secretary. intros H.
  destruct (H eq_refl) as [(c & [] & _)|[Hc _]]. discriminate.
Qed.

(** C2, amended: with a method that is not safe, a grant implies that the
    requesting user holds a 'REP' membership in the club (or one of the
    clubs) of the object, or that the object is a club and the user is a
    secretary, or that the object is a user and is the requesting user. *)
Theorem write_rules :
  forall (Obj : Type) (self : BasePermission Obj) (request : Request)
         (view : View) (obj : Obj) (conn : Connection),
    safe request = false ->
    granted self request view obj conn = true ->
    rep_of_any (database conn) (user request)
      (clubs_of self obj (database conn)) \/
    (club_level self = true /\ is_secretary (user request) = true) \/
    is_self self obj (user request) = true.
Proof.
  intros Obj self request view obj conn Hs Hg.
  destruct self; cbn [clubs_of club_level is_self].
  - apply (post_granted request view conn obj) in Hg.
    destruct Hg as [Hg|Hg]; [congruence|].
    left. apply rep_of_any_singleton. exact Hg.
  - apply (conversation_granted request view conn obj) in Hg.
    destruct Hg as [Hg _]. congruence.
  - rewrite user_granted, Hs in Hg. right. right. exact Hg.
  - apply (club_granted request view conn obj) in Hg.
    destruct Hg as [Hg|[Hg|[_ Hg]]]; [congruence| |].
    + right. left. split; [reflexivity|exact Hg].
    + left. apply rep_of_any_singleton. exact Hg.
  - apply (clubrole_granted request view conn obj) in Hg.
    left. apply rep_of_any_singleton. exact Hg.
  - apply (clubmembership_granted request view conn obj) in Hg.
    left. apply rep_of_any_singleton. exact Hg.
  - apply (feedback_granted request view conn obj) in Hg.
    destruct Hg as [Hg _]. congruence.
  - apply (reply_granted request view conn obj) in Hg.
    destruct Hg as [Hg _]. congruence.
  - apply (project_granted request view conn obj) in Hg.
    destruct Hg as [[Hg _]|[_ Hg]]; [congruence|].
    left. exact Hg.
Qed.

Lemma write_rules_witness :
  safe (Sample.PUT Sample.bob) = false /\
  granted IsRepOrReadOnlyPost (Sample.PUT Sample.bob) APIView Sample.hello
    (Sample.connect Sample.db) = true /\
  (rep_of_any Sample.db Sample.bob [Sample.chess] \/
   (false = true /\ is_secretary Sample.bob = true) \/
   false = true).
Proof.
  split; [reflexivity|]. split; [reflexivity|].
  apply (write_rules Post.t IsRepOrReadOnlyPost (Sample.PUT Sample.bob) APIView
           Sample.hello (Sample.connect Sample.db)); reflexivity.
Defined.

(** ** Membership rows and the grants *)

Lemma linking_rows_In (db : Database) (u : User.t) (c : Club.t)
  (m : ClubMembership.t) :
  In m (linking_rows db u c) <-> In m (club_memberships db) /\ links u c m.
Proof.
  unfold linking_rows, links, club_eq.
  rewrite filter_In, andb_true_iff, !Z.eqb_eq. tauto.
Qed.

Lemma member_of_linking (db : Database) (u : User.t) (c : Club.t) :
  member_of db u c <-> exists m, In m (linking_rows db u c).
Proof.
  unfold member_of. split; intros (m & H); exists m; apply linking_rows_In, H.
Qed.

Lemma rep_of_linking (db : Database) (u : User.t) (c : Club.t) :
  rep_of db u c <->
  exists m, In m (linking_rows db u c) /\
            ClubRole.privilege (ClubMembership.club_role m) = "REP".
Proof.
  unfold rep_of. split.
  - intros (m & Hin & Hl & Hp). exists m. split; [|exact Hp].
    apply linking_rows_In. auto.
  - intros (m & Hin & Hp). apply linking_rows_In in Hin. exists m. tauto.
Qed.

Section Agree.

Variables (db1 db2 : Database) (u : User.t).

Lemma member_of_agree (c : Club.t) :
  linking_rows db1 u c = linking_rows db2 u c ->
  (member_of db1 u c <-> member_of db2 u c).
Proof. intros E. rewrite !member_of_linking, E. reflexivity. Qed.

Lemma rep_of_agree (c : Club.t) :
  linking_rows db1 u c = linking_rows db2 u c ->
  (rep_of db1 u c <-> rep_of db2 u c).
Proof. intros E. rewrite !rep_of_linking, E. reflexivity. Qed.

Lemma member_of_any_agree (cs : list Club.t) :
  (forall c, In c cs -> linking_rows db1 u c = linking_rows db2 u c) ->
  (member_of_any db1 u cs <-> member_of_any db2 u cs).
Proof.
  intros E. unfold member_of_any.
  split; intros (c & Hc & H); exists c; split; auto;
    apply (member_of_agree c (E c Hc)); exact H.
Qed.

Lemma rep_of_any_agree (cs : list Club.t) :
  (forall c, In c cs -> linking_rows db1 u c = linking_rows db2 u c) ->
  (rep_of_any db1 u cs <-> rep_of_any db2 u cs).
Proof.
  intros E. unfold rep_of_any.
  split; intros (c & Hc & H); exists c; split; auto;
    apply (rep_of_agree c (E c Hc)); exact H.
Qed.

End Agree.

Section Grow.

Variables (db db' : Database) (u : User.t).
Hypothesis more : incl (club_memberships db) (club_memberships db').

Lemma member_of_grow (c : Club.t) : member_of db u c -> member_of db' u c.
Proof. intros (m & Hin & H). exists m. split; [apply more, Hin|exact H]. Qed.

Lemma rep_of_grow (c : Club.t) : rep_of db u c -> rep_of db' u c.
Proof. intros (m & Hin & H). exists m. split; [apply more, Hin|exact H]. Qed.

Lemma member_of_any_grow (cs : list Club.t) :
  member_of_any db u cs -> member_of_any db' u cs.
Proof. intros (c & Hc & H). exists c. split; [exact Hc|apply member_of_grow, H]. Qed.

Lemma rep_of_any_grow (cs : list Club.t) :
  rep_of_any db u cs -> rep_of_any db' u cs.
Proof. intros (c & Hc & H). exists c. split; [exact Hc|apply rep_of_grow, H]. Qed.

End Grow.

Lemma has_rows_empty (qs : QuerySet) (db : Database) :
  club_memberships db = [] -> has_rows qs db = false.
Proof. intros E. unfold has_rows, rows. rewrite E. reflexivity. Qed.

Lemma any_has_rows_empty (qss : list QuerySet) (db : Database) :
  club_memberships db = [] -> any_has_rows qss db = false.
Proof.
  intros E. unfold any_has_rows.
  induction qss as [|qs qss IH]; cbn; [reflexivity|].
  rewrite (has_rows_empty qs db E). exact IH.
Qed.

(** C5, as stated, fails: the PUT of Alice on her own user object is granted
    on a database without any membership row, where every disjunction of
    membership-existence checks is False. *)
Lemma self_edit_is_no_membership_check :
  safe (Sample.PUT Sample.alice) = false /\
  ~ only_membership_checks IsSelfOrReadOnlyUser (Sample.PUT Sample.alice)
      APIView Sample.alice.
Proof.
  split; [reflexivity|].
  intros (qss & _ & H).
  specialize (H (Sample.connect Sample.empty_db)).
  rewrite (any_has_rows_empty qss) in H by reflexivity.
  discriminate.
Qed.

(** C5, amended: with a method that is not safe, the answer of a call is the
    disjunction of a term that does not depend on the database (whether the
    object is the requesting user, for the user class; the superuser flag,
    for the club class; nothing for the other classes) and of the checks of
    [write_checks], of which there is at most one: the 'REP' check on the
    object's club for a post, a role, a membership and a club with a method
    other than DELETE, the 'REP' check on the project's clubs for a project,
    and none for a conversation, a user, a feedback, a feedback reply and a
    DELETE of a club.  The call runs no query or exactly that check, and the
    check holds exactly when a 'REP' membership row links the user to the
    object's club or to one of the project's clubs. *)
Theorem write_decision_shape :
  forall (Obj : Type) (self : BasePermission Obj) (request : Request)
         (view : View) (obj : Obj),
    safe request = false ->
    (List.length (write_checks self request obj) <= 1)%nat /\
    forall conn : Connection,
      granted self request view obj conn =
        is_self self obj (user request)
        || (club_level self && is_secretary (user request))
        || any_has_rows (write_checks self request obj) (database conn) /\
      (queries (snd (has_object_permission self request view obj conn)) =
         queries conn \/
       queries (snd (has_object_permission self request view obj conn)) =
         (write_checks self request obj ++ queries conn)%list) /\
      (any_has_rows (write_checks self request obj) (database conn) = true <->
       write_checks self request obj <> [] /\
       rep_of_any (database conn) (user request)
         (clubs_of self obj (database conn))).
Proof.
  intros Obj self request view obj Hs. unfold safe in Hs.
  assert (Hnil : forall db (P : Prop),
             any_has_rows [] db = true <-> @nil QuerySet <> [] /\ P).
  { intros db P. cbn. split; [discriminate|]. intros [H _]. now elim H. }
  assert (Hone : forall (q : QuerySet) conn (P : Prop),
             (fst (exists_ q conn) = true <-> P) ->
             (any_has_rows [q] (database conn) = true <-> [q] <> [] /\ P)).
  { intros q conn P H. cbn in *. rewrite orb_false_r, H.
    split; [intros HP; split; [discriminate|exact HP]|tauto]. }
  destruct self; unfold granted;
    cbn [has_object_permission club_level is_self write_checks clubs_of].
  - split; [cbn; lia|]. intros conn.
    unfold IsRepOrReadOnlyPost.has_object_permission. rewrite Hs.
    split; [cbn; now rewrite orb_false_r|]. split; [right; reflexivity|].
    apply Hone. rewrite rep_of_any_singleton. apply rep_query_spec.
  - split; [cbn; lia|]. intros conn.
    unfold IsClubMemberReadOnlyConversation.has_object_permission. rewrite Hs.
    split; [reflexivity|]. split; [left; reflexivity|]. apply Hnil.
  - split; [cbn; lia|]. intros conn.
    unfold IsSelfOrReadOnlyUser.has_object_permission. rewrite Hs.
    split; [cbn; now rewrite !orb_false_r|]. split; [left; reflexivity|].
    apply Hnil.
  - unfold IsSecyOrRepOrReadOnlyClub.has_object_permission. rewrite Hs.
    destruct (String.eqb (method request) "DELETE").
    + split; [cbn; lia|]. intros conn.
      split; [cbn; now rewrite orb_false_r|]. split; [left; reflexivity|].
      apply Hnil.
    + split; [cbn; lia|]. intros conn. split; [|split].
      * destruct (is_secretary (user request)); cbn;
          rewrite ?orb_false_r; reflexivity.
      * destruct (is_secretary (user request)); [left|right]; reflexivity.
      * apply Hone. rewrite rep_of_any_singleton. apply rep_query_spec.
  - split; [cbn; lia|]. intros conn.
    unfold IsRepClubRole.has_object_permission.
    split; [cbn; now rewrite orb_false_r|]. split; [right; reflexivity|].
    apply Hone. rewrite rep_of_any_singleton. apply rep_query_spec.
  - split; [cbn; lia|]. intros conn.
    unfold IsRepClubMembership.has_object_permission.
    split; [cbn; now rewrite orb_false_r|]. split; [right; reflexivity|].
    apply Hone. rewrite rep_of_any_singleton. apply rep_query_spec.
  - split; [cbn; lia|]. intros conn.
    unfold IsSecyOrRepOrAuthorFeedback.has_object_permission. rewrite Hs.
    split; [reflexivity|]. split; [left; reflexivity|]. apply Hnil.
  - split; [cbn; lia|]. intros conn.
    unfold IsSecyOrRepOrAuthorFeedbackReply.has_object_permission. rewrite Hs.
    split; [reflexivity|]. split; [left; reflexivity|]. apply Hnil.
  - split; [cbn; lia|]. intros conn.
    unfold IsRepOrSecyAndClubMemberReadOnlyProject.has_object_permission.
    rewrite Hs.
    split; [cbn; now rewrite orb_false_r|]. split; [right; reflexivity|].
    apply Hone. apply project_rep_query_spec.
Qed.

Lemma write_decision_shape_witness :
  safe (Sample.PUT Sample.bob) = false /\
  granted IsSecyOrRepOrReadOnlyClub (Sample.PUT Sample.bob) APIView
    Sample.chess (Sample.connect Sample.db) =
  false || (true && false)
  || any_has_rows
       [[user__id 3; club_role__club Sample.chess; club_role__privilege "REP"]]
       Sample.db.
Proof.
  split; [reflexivity|].
  exact (proj1 (proj2 (write_decision_shape Club.t IsSecyOrRepOrReadOnlyClub
                         (Sample.PUT Sample.bob) APIView Sample.chess eq_refl)
                  (Sample.connect Sample.db))).
Defined.

(** C6, as stated, fails: the complaint written by Alice and the same
    complaint reassigned to Bob have the same identity and the same club, and
    the membership rows are the same, yet Alice's GET is granted on the first
    and refused on the second: the answer depends on the author too. *)
Lemma feedback_answer_depends_on_author :
  ~ decided_by_identity_clubs_and_rows IsSecyOrRepOrAuthorFeedback
      (Sample.GET Sample.alice) APIView Sample.complaint Sample.complaint_of_bob
      (Sample.connect Sample.db) (Sample.connect Sample.db_reassigned).
Proof.
  unfold decided_by_identity_clubs_and_rows. intros H.
  assert (E : true = false).
  { apply H; [reflexivity|reflexivity|]. intros c _. reflexivity. }
  discriminate.
Qed.

(** C6, amended: the answer of every class is a function of the request (its
    method, the identity and superuser flag of its user), of the identity of
    the object, of its club or clubs, of the author of the feedback for the
    two feedback classes, and of the membership rows that link the user to
    those clubs: two runs that agree on these get the same answer, whatever
    else the databases and the query logs contain. *)
Theorem answer_depends_on_listed_inputs_and_author :
  forall (Obj : Type) (self : BasePermission Obj) (request : Request)
         (view : View) (obj1 obj2 : Obj) (conn1 conn2 : Connection),
    pk self obj1 = pk self obj2 ->
    author_id self obj1 = author_id self obj2 ->
    clubs_of self obj1 (database conn1) = clubs_of self obj2 (database conn2) ->
    (forall c, In c (clubs_of self obj1 (database conn1)) ->
               linking_rows (database conn1) (user request) c =
               linking_rows (database conn2) (user request) c) ->
    granted self request view obj1 conn1 = granted self request view obj2 conn2.
Proof.
  intros Obj self request view obj1 obj2 conn1 conn2 Hpk Ha Hc Hr.
  apply eq_iff_eq_true.
  destruct self; cbn [clubs_of pk author_id] in Hpk, Ha, Hc, Hr.
  - pose proof (post_granted request view conn1 obj1) as H1.
    pose proof (post_granted request view conn2 obj2) as H2.
    cbv zeta in H1, H2. rewrite H1, H2.
    injection Hc as <-.
    rewrite (rep_of_agree _ _ _ _ (Hr _ (or_introl eq_refl))). reflexivity.
  - pose proof (conversation_granted request view conn1 obj1) as H1.
    pose proof (conversation_granted request view conn2 obj2) as H2.
    cbv zeta in H1, H2. rewrite H1, H2.
    injection Hc as <-.
    rewrite (member_of_agree _ _ _ _ (Hr _ (or_introl eq_refl))). reflexivity.
  - rewrite !user_granted. unfold user_eq. rewrite Hpk. reflexivity.
  - pose proof (club_granted request view conn1 obj1) as H1.
    pose proof (club_granted request view conn2 obj2) as H2.
    cbv zeta in H1, H2. rewrite H1, H2.
    injection Hc as <-.
    rewrite (rep_of_agree _ _ _ _ (Hr _ (or_introl eq_refl))). reflexivity.
  - pose proof (clubrole_granted request view conn1 obj1) as H1.
    pose proof (clubrole_granted request view conn2 obj2) as H2.
    cbv zeta in H1, H2. rewrite H1, H2.
    injection Hc as <-.
    apply rep_of_agree, Hr. left. reflexivity.
  - pose proof (clubmembership_granted request view conn1 obj1) as H1.
    pose proof (clubmembership_granted request view conn2 obj2) as H2.
    cbv zeta in H1, H2. rewrite H1, H2.
    injection Hc as <-.
    apply rep_of_agree, Hr. left. reflexivity.
  - pose proof (feedback_granted request view conn1 obj1) as H1.
    pose proof (feedback_granted request view conn2 obj2) as H2.
    cbv zeta in H1, H2. rewrite H1, H2.
    injection Hc as <-. injection Ha as <-.
    rewrite (rep_of_agree _ _ _ _ (Hr _ (or_introl eq_refl))). reflexivity.
  - pose proof (reply_granted request view conn1 obj1) as H1.
    pose proof (reply_granted request view conn2 obj2) as H2.
    cbv zeta in H1, H2. rewrite H1, H2.
    injection Hc as <-. injection Ha as <-.
    rewrite (rep_of_agree _ _ _ _ (Hr _ (or_introl eq_refl))). reflexivity.
  - pose proof (project_granted request view conn1 obj1) as H1.
    pose proof (project_granted request view conn2 obj2) as H2.
    cbv zeta in H1, H2. rewrite H1, H2. rewrite <- Hc.
    rewrite (member_of_any_agree _ _ _ _ Hr), (rep_of_any_agree _ _ _ _ Hr).
    reflexivity.
Qed.

Lemma answer_depends_on_listed_inputs_and_author_witness :
  granted IsSecyOrRepOrAuthorFeedback (Sample.GET Sample.alice) APIView
    Sample.complaint (Sample.connect Sample.db) =
  granted IsSecyOrRepOrAuthorFeedback (Sample.GET Sample.alice) APIView
    Sample.complaint {| database := Sample.db_more; queries := [[]] |}.
Proof.
  apply (answer_depends_on_listed_inputs_and_author Feedback.t
           IsSecyOrRepOrAuthorFeedback (Sample.GET Sample.alice) APIView
           Sample.complaint Sample.complaint (Sample.connect Sample.db)
           {| database := Sample.db_more; queries := [[]] |}).
  - reflexivity.
  - reflexivity.
  - reflexivity.
  - intros c [Hc|[]]. rewrite <- Hc. reflexivity.
Defined.

(** C8: every class is monotone in the membership rows: an answer True stays
    True on a database obtained by adding [ClubMembership] rows, all other
    tables being kept. *)
Theorem granted_monotone_in_memberships :
  forall (Obj : Type) (self : BasePermission Obj) (request : Request)
         (view : View) (obj : Obj) (conn conn' : Connection)
         (ms : list ClubMembership.t),
    incl (club_memberships (database conn)) ms ->
    database conn' = set_club_memberships ms (database conn) ->
    granted self request view obj conn = true ->
    granted self request view obj conn' = true.
Proof.
  intros Obj self request view obj conn conn' ms Hincl Hdb Hg.
  assert (more : incl (club_memberships (database conn))
                      (club_memberships (database conn')))
    by (rewrite Hdb; exact Hincl).
  assert (Hclubs : forall p, clubs_all p (database conn') =
                             clubs_all p (database conn))
    by (intros p; rewrite Hdb; reflexivity).
  pose proof (rep_of_grow _ _ (user request) more) as Hrep.
  pose proof (member_of_grow _ _ (user request) more) as Hmem.
  destruct self.
  - apply (post_granted request view conn' obj).
    apply (post_granted request view conn obj) in Hg. intuition.
  - apply (conversation_granted request view conn' obj).
    apply (conversation_granted request view conn obj) in Hg. intuition.
  - rewrite user_granted in *. exact Hg.
  - apply (club_granted request view conn' obj).
    apply (club_granted request view conn obj) in Hg. intuition.
  - apply (clubrole_granted request view conn' obj).
    apply (clubrole_granted request view conn obj) in Hg. intuition.
  - apply (clubmembership_granted request view conn' obj).
    apply (clubmembership_granted request view conn obj) in Hg. intuition.
  - apply (feedback_granted request view conn' obj).
    apply (feedback_granted request view conn obj) in Hg. intuition.
  - apply (reply_granted request view conn' obj).
    apply (reply_granted request view conn obj) in Hg. intuition.
  - apply (project_granted request view conn' obj).
    apply (project_granted request view conn obj) in Hg.
    rewrite Hclubs.
    pose proof (rep_of_any_grow _ _ (user request) more (clubs_all obj (database conn))).
    pose proof (member_of_any_grow _ _ (user request) more (clubs_all obj (database conn))).
    intuition.
Qed.

Lemma granted_monotone_in_memberships_witness :
  granted IsRepOrReadOnlyPost (Sample.PUT Sample.bob) APIView Sample.hello
    (Sample.connect Sample.db) = true /\
  granted IsRepOrReadOnlyPost (Sample.PUT Sample.bob) APIView Sample.hello
    (Sample.connect Sample.db_more) = true.
Proof.
  split; [reflexivity|].
  apply (granted_monotone_in_memberships Post.t IsRepOrReadOnlyPost
           (Sample.PUT Sample.bob) APIView Sample.hello
           (Sample.connect Sample.db) (Sample.connect Sample.db_more)
           (Sample.secy_in_drama :: club_memberships Sample.db)).
  - apply incl_tl, incl_refl.
  - reflexivity.
  - reflexivity.
Defined.

(** ** Further properties of the rules *)

(** *** Helpers *)

Lemma rep_of_any_member (db : Database) (u : User.t) (cs : list Club.t) :
  rep_of_any db u cs -> member_of_any db u cs.
Proof. intros (c & Hc & H). exists c. split; [exact Hc|apply rep_is_member, H]. Qed.

Lemma rep_of_any_nil (db : Database) (u : User.t) : ~ rep_of_any db u [].
Proof. intros (c & [] & _). Qed.

Lemma member_of_any_nil (db : Database) (u : User.t) : ~ member_of_any db u [].
Proof. intros (c & [] & _). Qed.

Section Stranger.

Variables (db : Database) (u : User.t).
Hypothesis stranger :
  forall m, In m (club_memberships db) ->
            User.id (ClubMembership.user m) <> User.id u.

Lemma stranger_not_member (c : Club.t) : ~ member_of db u c.
Proof. intros (m & Hin & Hu & _). exact (stranger m Hin Hu). Qed.

Lemma stranger_not_rep (c : Club.t) : ~ rep_of db u c.
Proof. intros H. exact (stranger_not_member c (rep_is_member _ _ _ H)). Qed.

Lemma stranger_not_member_of_any (cs : list Club.t) : ~ member_of_any db u cs.
Proof. intros (c & _ & H). exact (stranger_not_member c H). Qed.

Lemma stranger_not_rep_of_any (cs : list Club.t) : ~ rep_of_any db u cs.
Proof. intros (c & _ & H). exact (stranger_not_rep c H). Qed.

End Stranger.

(** A grant survives when the membership table grows and the clubs of the
    projects are kept. *)
Lemma granted_incl {Obj : Type} (self : BasePermission Obj) (request : Request)
  (view : View) (obj : Obj) (conn conn' : Connection) :
  incl (club_memberships (database conn)) (club_memberships (database conn')) ->
  project_clubs (database conn') = project_clubs (database conn) ->
  granted self request view obj conn = true ->
  granted self request view obj conn' = true.
Proof.
  intros more Hpc Hg.
  assert (Hclubs : forall p, clubs_all p (database conn') =
                             clubs_all p (database conn))
    by (intros p; unfold clubs_all; rewrite Hpc; reflexivity).
  pose proof (rep_of_grow _ _ (user request) more) as Hrep.
  pose proof (member_of_grow _ _ (user request) more) as Hmem.
  destruct self.
  - apply (post_granted request view conn' obj).
    apply (post_granted request view conn obj) in Hg. intuition.
  - apply (conversation_granted request view conn' obj).
    apply (conversation_granted request view conn obj) in Hg. intuition.
  - rewrite user_granted in *. exact Hg.
  - apply (club_granted request view conn' obj).
    apply (club_granted request view conn obj) in Hg. intuition.
  - apply (clubrole_granted request view conn' obj).
    apply (clubrole_granted request view conn obj) in Hg. intuition.
  - apply (clubmembership_granted request view conn' obj).
    apply (clubmembership_granted request view conn obj) in Hg. intuition.
  - apply (feedback_granted request view conn' obj).
    apply (feedback_granted request view conn obj) in Hg. intuition.
  - apply (reply_granted request view conn' obj).
    apply (reply_granted request view conn obj) in Hg. intuition.
  - apply (project_granted request view conn' obj).
    apply (project_granted request view conn obj) in Hg.
    rewrite Hclubs.
    pose proof (rep_of_any_grow _ _ (user request) more
                  (clubs_all obj (database conn))).
    pose proof (member_of_any_grow _ _ (user request) more
                  (clubs_all obj (database conn))).
    intuition.
Qed.

(** *** Writing implies reading *)

(** X1: for every class, a user who is granted a request with a method that
    is not safe on an object is granted every request with a safe method on
    the same object and the same database. *)
Theorem write_implies_read :
  forall (Obj : Type) (self : BasePermission Obj) (request request' : Request)
         (view : View) (obj : Obj) (conn conn' : Connection),
    user request' = user request ->
    database conn' = database conn ->
    safe request = false ->
    safe request' = true ->
    granted self request view obj conn = true ->
    granted self request' view obj conn' = true.
Proof.
  intros Obj self request request' view obj conn conn' Hu Hdb Hs Hs' Hg.
  destruct self.
  - apply (post_granted request' view conn' obj). left. exact Hs'.
  - apply (conversation_granted request view conn obj) in Hg.
    destruct Hg as [Hg _]. congruence.
  - rewrite user_granted, Hs'. reflexivity.
  - apply (club_granted request' view conn' obj). left. exact Hs'.
  - apply (clubrole_granted request' view conn' obj).
    apply (clubrole_granted request view conn obj) in Hg.
    rewrite Hu, Hdb. exact Hg.
  - apply (clubmembership_granted request' view conn' obj).
    apply (clubmembership_granted request view conn obj) in Hg.
    rewrite Hu, Hdb. exact Hg.
  - apply (feedback_granted request view conn obj) in Hg.
    destruct Hg as [Hg _]. congruence.
  - apply (reply_granted request view conn obj) in Hg.
    destruct Hg as [Hg _]. congruence.
  - apply (project_granted request' view conn' obj).
    apply (project_granted request view conn obj) in Hg.
    destruct Hg as [[Hg _]|[_ Hg]]; [congruence|].
    left. split; [exact Hs'|]. right. rewrite Hu, Hdb.
    apply rep_of_any_member, Hg.
Qed.

Lemma write_implies_read_witness :
  granted IsRepOrSecyAndClubMemberReadOnlyProject (Sample.GET Sample.bob)
    APIView Sample.tournament (Sample.connect Sample.db) = true.
Proof.
  apply (write_implies_read Project.t IsRepOrSecyAndClubMemberReadOnlyProject
           (Sample.PUT Sample.bob) (Sample.GET Sample.bob) APIView
           Sample.tournament (Sample.connect Sample.db)
           (Sample.connect Sample.db));
    reflexivity.
Defined.

(** *** Clubs, posts and users *)

(** X2: on a club, a representative who is not a secretary is granted every
    method that is not safe except DELETE. *)
Theorem rep_updates_but_does_not_delete_club :
  forall (request : Request) (view : View) (obj : Club.t) (conn : Connection),
    safe request = false ->
    is_secretary (user request) = false ->
    rep_of (database conn) (user request) obj ->
    (granted IsSecyOrRepOrReadOnlyClub request view obj conn = true <->
     method request <> "DELETE").
Proof.
  intros request view obj conn Hs Hsec Hrep.
  pose proof (club_granted request view conn obj) as H. cbv zeta in H.
  rewrite H. split.
  - intros [H1|[H1|[H1 _]]]; [congruence|congruence|exact H1].
  - intros Hd. right. right. split; assumption.
Qed.

Lemma rep_updates_but_does_not_delete_club_witness :
  granted IsSecyOrRepOrReadOnlyClub (Sample.PUT Sample.bob) APIView
    Sample.chess (Sample.connect Sample.db) = true <->
  method (Sample.PUT Sample.bob) <> "DELETE".
Proof.
  apply (rep_updates_but_does_not_delete_club (Sample.PUT Sample.bob) APIView
           Sample.chess (Sample.connect Sample.db)).
  - reflexivity.
  - reflexivity.
  - exists Sample.bob_is_rep. split; [right; left; reflexivity|].
    repeat split; reflexivity.
Defined.

(** X3: a DELETE of a club is decided by the superuser flag alone and runs no
    query: the answer is the flag, and the connection is returned as it
    was. *)
Theorem club_delete_is_for_secretary :
  forall (request : Request) (view : View) (obj : Club.t) (conn : Connection),
    method request = "DELETE" ->
    has_object_permission IsSecyOrRepOrReadOnlyClub request view obj conn =
    (is_secretary (user request), conn).
Proof.
  intros request view obj conn Hm.
  cbn [has_object_permission].
  unfold IsSecyOrRepOrReadOnlyClub.has_object_permission.
  rewrite Hm. reflexivity.
Qed.

Lemma club_delete_is_for_secretary_witness :
  has_object_permission IsSecyOrRepOrReadOnlyClub (Sample.DELETE Sample.bob)
    APIView Sample.chess (Sample.connect Sample.db) =
  (false, Sample.connect Sample.db).
Proof.
  apply (club_delete_is_for_secretary (Sample.DELETE Sample.bob) APIView
           Sample.chess (Sample.connect Sample.db)).
  reflexivity.
Defined.

(** X4: with a method that is not safe, a post is granted exactly to a holder
    of a 'REP' membership in the club of the post's channel; the superuser
    flag gives no right to write a post. *)
Theorem post_write_exactly_for_reps :
  forall (request : Request) (view : View) (obj : Post.t) (conn : Connection),
    safe request = false ->
    (granted IsRepOrReadOnlyPost request view obj conn = true <->
     rep_of (database conn) (user request) (Channel.club (Post.channel obj))).
Proof.
  intros request view obj conn Hs.
  pose proof (post_granted request view conn obj) as H. cbv zeta in H.
  rewrite H. split; [|tauto].
  intros [H1|H1]; [congruence|exact H1].
Qed.

Lemma post_write_exactly_for_reps_witness :
  granted IsRepOrReadOnlyPost (Sample.PUT Sample.secy) APIView Sample.hello
    (Sample.connect Sample.db) = true <->
  rep_of Sample.db Sample.secy Sample.chess.
Proof.
  apply (post_write_exactly_for_reps (Sample.PUT Sample.secy) APIView
           Sample.hello (Sample.connect Sample.db)).
  reflexivity.
Defined.

(** X5: the user class never runs a query, and with a method that is not safe
    it grants exactly when the object is the requesting user: nobody, a
    secretary included, may modify another user. *)
Theorem user_modified_by_self_only :
  forall (request : Request) (view : View) (obj : User.t) (conn : Connection),
    snd (has_object_permission IsSelfOrReadOnlyUser request view obj conn) = conn /\
    (safe request = false ->
     (granted IsSelfOrReadOnlyUser request view obj conn = true <->
      User.id obj = User.id (user request))).
Proof.
  intros request view obj conn. split.
  - cbn [has_object_permission].
    unfold IsSelfOrReadOnlyUser.has_object_permission.
    destruct (str_in (method request) SAFE_METHODS); reflexivity.
  - intros Hs. rewrite user_granted, Hs. cbn [orb].
    unfold user_eq. apply Z.eqb_eq.
Qed.

(** X6: the method matters only through its being safe and, for a club,
    its being DELETE: two requests of the same user that agree on both get
    the same answer and leave the same connection. *)
Theorem method_matters_through_safe_and_delete :
  forall (Obj : Type) (self : BasePermission Obj) (request request' : Request)
         (view : View) (obj : Obj) (conn : Connection),
    user request' = user request ->
    safe request' = safe request ->
    String.eqb (method request') "DELETE" = String.eqb (method request) "DELETE" ->
    has_object_permission self request' view obj conn =
    has_object_permission self request view obj conn.
Proof.
  intros Obj self request request' view obj conn Hu Hs Hd.
  unfold safe in Hs.
  destruct self; cbn [has_object_permission];
    unfold IsRepOrReadOnlyPost.has_object_permission,
      IsClubMemberReadOnlyConversation.has_object_permission,
      IsSelfOrReadOnlyUser.has_object_permission,
      IsSecyOrRepOrReadOnlyClub.has_object_permission,
      IsRepClubRole.has_object_permission,
      IsRepClubMembership.has_object_permission,
      IsSecyOrRepOrAuthorFeedback.has_object_permission,
      IsSecyOrRepOrAuthorFeedbackReply.has_object_permission,
      IsRepOrSecyAndClubMemberReadOnlyProject.has_object_permission;
    rewrite ?Hs, ?Hd, ?Hu; reflexivity.
Qed.

Lemma method_matters_through_safe_and_delete_witness :
  has_object_permission IsSecyOrRepOrReadOnlyClub
    {| method := "PATCH"; user := Sample.bob |} APIView Sample.chess
    (Sample.connect Sample.db) =
  has_object_permission IsSecyOrRepOrReadOnlyClub (Sample.PUT Sample.bob)
    APIView Sample.chess (Sample.connect Sample.db).
Proof.
  apply (method_matters_through_safe_and_delete Club.t
           IsSecyOrRepOrReadOnlyClub (Sample.PUT Sample.bob)
           {| method := "PATCH"; user := Sample.bob |} APIView Sample.chess
           (Sample.connect Sample.db));
    reflexivity.
Defined.

(** *** The queries a call runs *)




(** *** Users without a membership, projects without a club *)

(** X9: for a user to whom no membership row of the database belongs, the
    answers do not depend on the object's club: a post and a club are read
    only (a secretary may also write the club), a conversation, a role and
    a membership are refused with every method, a feedback and a reply are
    read by their author or a secretary, and a project is read by a
    secretary only. *)
Theorem user_without_membership :
  forall (request : Request) (view : View) (conn : Connection),
    (forall m, In m (club_memberships (database conn)) ->
               User.id (ClubMembership.user m) <> User.id (user request)) ->
    (forall obj, granted IsRepOrReadOnlyPost request view obj conn =
                 safe request) /\
    (forall obj, granted IsClubMemberReadOnlyConversation request view obj conn =
                 false) /\
    (forall obj, granted IsSecyOrRepOrReadOnlyClub request view obj conn =
                 safe request || is_secretary (user request)) /\
    (forall obj, granted IsRepClubRole request view obj conn = false) /\
    (forall obj, granted IsRepClubMembership request view obj conn = false) /\
    (forall obj, granted IsSecyOrRepOrAuthorFeedback request view obj conn =
                 safe request &&
                 (user_eq (Feedback.author obj) (user request)
                  || is_secretary (user request))) /\
    (forall obj, granted IsSecyOrRepOrAuthorFeedbackReply request view obj conn =
                 safe request &&
                 (user_eq (Feedback.author (FeedbackReply.parent obj))
                    (user request)
                  || is_secretary (user request))) /\
    (forall obj,
        granted IsRepOrSecyAndClubMemberReadOnlyProject request view obj conn =
        safe request && is_secretary (user request)).
Proof.
  intros request view conn Hno.
  pose proof (stranger_not_member _ _ Hno) as Hm.
  pose proof (stranger_not_rep _ _ Hno) as Hr.
  pose proof (stranger_not_member_of_any _ _ Hno) as Hma.
  pose proof (stranger_not_rep_of_any _ _ Hno) as Hra.
  repeat match goal with |- _ /\ _ => split end; intros obj;
    apply eq_iff_eq_true.
  - pose proof (post_granted request view conn obj) as H. cbv zeta in H.
    rewrite H. specialize (Hr (Channel.club (Post.channel obj))). tauto.
  - pose proof (conversation_granted request view conn obj) as H.
    cbv zeta in H. rewrite H.
    specialize (Hm (Channel.club (Conversation.channel obj))).
    split; [tauto|discriminate].
  - pose proof (club_granted request view conn obj) as H. cbv zeta in H.
    rewrite H, orb_true_iff. specialize (Hr obj). tauto.
  - pose proof (clubrole_granted request view conn obj) as H. cbv zeta in H.
    rewrite H. specialize (Hr (ClubRole.club obj)).
    split; [tauto|discriminate].
  - pose proof (clubmembership_granted request view conn obj) as H.
    cbv zeta in H. rewrite H.
    specialize (Hr (ClubRole.club (ClubMembership.club_role obj))).
    split; [tauto|discriminate].
  - pose proof (feedback_granted request view conn obj) as H. cbv zeta in H.
    rewrite H, andb_true_iff, orb_true_iff. unfold user_eq.
    rewrite Z.eqb_eq. specialize (Hr (Feedback.club obj)). tauto.
  - pose proof (reply_granted request view conn obj) as H. cbv zeta in H.
    rewrite H, andb_true_iff, orb_true_iff. unfold user_eq.
    rewrite Z.eqb_eq.
    specialize (Hr (Feedback.club (FeedbackReply.parent obj))). tauto.
  - pose proof (project_granted request view conn obj) as H. cbv zeta in H.
    rewrite H, andb_true_iff.
    specialize (Hma (clubs_all obj (database conn))).
    specialize (Hra (clubs_all obj (database conn))). tauto.
Qed.

Lemma user_without_membership_witness :
  granted IsRepClubRole (Sample.GET Sample.secy) APIView Sample.chess_rep
    (Sample.connect Sample.db) = false.
Proof.
  refine (proj1 (proj2 (proj2 (proj2
            (user_without_membership (Sample.GET Sample.secy) APIView
               (Sample.connect Sample.db) _)))) Sample.chess_rep).
  intros m [Hm|[Hm|[]]]; rewrite <- Hm; discriminate.
Defined.

(** X10: a project that has no club is read by secretaries only and is
    written by nobody. *)
Theorem project_without_clubs :
  forall (request : Request) (view : View) (obj : Project.t) (conn : Connection),
    clubs_all obj (database conn) = [] ->
    granted IsRepOrSecyAndClubMemberReadOnlyProject request view obj conn =
    safe request && is_secretary (user request).
Proof.
  intros request view obj conn Hc. apply eq_iff_eq_true.
  pose proof (project_granted request view conn obj) as H. cbv zeta in H.
  rewrite H, Hc, andb_true_iff.
  pose proof (rep_of_any_nil (database conn) (user request)).
  pose proof (member_of_any_nil (database conn) (user request)).
  tauto.
Qed.

Lemma project_without_clubs_witness :
  granted IsRepOrSecyAndClubMemberReadOnlyProject (Sample.PUT Sample.bob)
    APIView {| Project.id := 71 |} (Sample.connect Sample.db) =
  safe (Sample.PUT Sample.bob) && is_secretary Sample.bob.
Proof.
  apply (project_without_clubs (Sample.PUT Sample.bob) APIView
           {| Project.id := 71 |} (Sample.connect Sample.db)).
  reflexivity.
Defined.

(** *** The membership table as a set of rows *)

(** X11: the answers depend on the membership table only as a set of rows:
    two databases with the same project clubs whose membership tables hold
    the same rows, in any order and any number of copies, get the same answer
    from every class. *)
Theorem answer_ignores_order_and_copies_of_rows :
  forall (Obj : Type) (self : BasePermission Obj) (request : Request)
         (view : View) (obj : Obj) (conn conn' : Connection),
    (forall m, In m (club_memberships (database conn)) <->
               In m (club_memberships (database conn'))) ->
    project_clubs (database conn') = project_clubs (database conn) ->
    granted self request view obj conn = granted self request view obj conn'.
Proof.
  intros Obj self request view obj conn conn' Hrows Hpc.
  apply eq_iff_eq_true. split.
  - apply granted_incl; [|exact Hpc]. intros m Hm. apply Hrows, Hm.
  - apply granted_incl; [|symmetry; exact Hpc]. intros m Hm. apply Hrows, Hm.
Qed.

Lemma answer_ignores_order_and_copies_of_rows_witness :
  granted IsRepOrReadOnlyPost (Sample.PUT Sample.bob) APIView Sample.hello
    (Sample.connect Sample.db) =
  granted IsRepOrReadOnlyPost (Sample.PUT Sample.bob) APIView Sample.hello
    (Sample.connect
       (set_club_memberships
          [Sample.bob_is_rep; Sample.alice_is_member; Sample.bob_is_rep]
          Sample.db)).
Proof.
  apply (answer_ignores_order_and_copies_of_rows Post.t IsRepOrReadOnlyPost
           (Sample.PUT Sample.bob) APIView Sample.hello
           (Sample.connect Sample.db)
           (Sample.connect
              (set_club_memberships
                 [Sample.bob_is_rep; Sample.alice_is_member; Sample.bob_is_rep]
                 Sample.db))).
  - intros m. cbn. tauto.
  - reflexivity.
Defined.

(** *** What a membership row gives *)

(** X12: a user to whom a membership row of privilege 'REP' belongs is
    granted, with every method, that membership, its role, and every role
    and membership, post and project of the role's club; the club itself
    with every method but DELETE; and the feedbacks of the club and their
    replies with a safe method. *)
Theorem rights_of_a_representative :
  forall (request : Request) (view : View) (conn : Connection)
         (m : ClubMembership.t),
    In m (club_memberships (database conn)) ->
    User.id (ClubMembership.user m) = User.id (user request) ->
    ClubRole.privilege (ClubMembership.club_role m) = "REP" ->
    granted IsRepClubMembership request view m conn = true /\
    granted IsRepClubRole request view (ClubMembership.club_role m) conn = true /\
    (forall obj : ClubRole.t,
        ClubRole.club obj = ClubRole.club (ClubMembership.club_role m) ->
        granted IsRepClubRole request view obj conn = true) /\
    (forall obj : ClubMembership.t,
        ClubRole.club (ClubMembership.club_role obj) =
          ClubRole.club (ClubMembership.club_role m) ->
        granted IsRepClubMembership request view obj conn = true) /\
    (forall obj : Post.t,
        Channel.club (Post.channel obj) =
          ClubRole.club (ClubMembership.club_role m) ->
        granted IsRepOrReadOnlyPost request view obj conn = true) /\
    (forall obj : Project.t,
        In (ClubRole.club (ClubMembership.club_role m))
           (clubs_all obj (database conn)) ->
        granted IsRepOrSecyAndClubMemberReadOnlyProject request view obj conn =
        true) /\
    (method request <> "DELETE" ->
     granted IsSecyOrRepOrReadOnlyClub request view
       (ClubRole.club (ClubMembership.club_role m)) conn = true) /\
    (safe request = true ->
     (forall obj : Feedback.t,
         Feedback.club obj = ClubRole.club (ClubMembership.club_role m) ->
         granted IsSecyOrRepOrAuthorFeedback request view obj conn = true) /\
     (forall obj : FeedbackReply.t,
         Feedback.club (FeedbackReply.parent obj) =
           ClubRole.club (ClubMembership.club_role m) ->
         granted IsSecyOrRepOrAuthorFeedbackReply request view obj conn = true)).
Proof.
  intros request view conn m Hin Hu Hp.
  assert (Hrep : rep_of (database conn) (user request)
                   (ClubRole.club (ClubMembership.club_role m))).
  { exists m. repeat split; assumption. }
  repeat match goal with |- _ /\ _ => split end.
  - apply (clubmembership_granted request view conn m). exact Hrep.
  - apply (clubrole_granted request view conn (ClubMembership.club_role m)).
    exact Hrep.
  - intros obj Hc. apply (clubrole_granted request view conn obj).
    rewrite Hc. exact Hrep.
  - intros obj Hc. apply (clubmembership_granted request view conn obj).
    rewrite Hc. exact Hrep.
  - intros obj Hc. apply (post_granted request view conn obj).
    right. rewrite Hc. exact Hrep.
  - intros obj Hc. apply (project_granted request view conn obj).
    destruct (safe request).
    + left. split; [reflexivity|]. right.
      exists (ClubRole.club (ClubMembership.club_role m)).
      split; [exact Hc|apply rep_is_member, Hrep].
    + right. split; [reflexivity|].
      exists (ClubRole.club (ClubMembership.club_role m)).
      split; [exact Hc|exact Hrep].
  - intros Hd.
    apply (club_granted request view conn
             (ClubRole.club (ClubMembership.club_role m))).
    right. right. split; assumption.
  - intros Hs. split; intros obj Hc.
    + apply (feedback_granted request view conn obj).
      split; [exact Hs|]. right. right. rewrite Hc. exact Hrep.
    + apply (reply_granted request view conn obj).
      split; [exact Hs|]. right. right. rewrite Hc. exact Hrep.
Qed.

Lemma rights_of_a_representative_witness :
  granted IsRepClubMembership (Sample.DELETE Sample.bob) APIView
    Sample.bob_is_rep (Sample.connect Sample.db) = true.
Proof.
  refine (proj1 (rights_of_a_representative (Sample.DELETE Sample.bob) APIView
                   (Sample.connect Sample.db) Sample.bob_is_rep _ _ _)).
  - right. left. reflexivity.
  - reflexivity.
  - reflexivity.
Defined.

(** X13: a user to whom a membership row of any privilege belongs is granted,
    with a safe method, the conversations of the channels of the role's club
    and the projects of that club. *)
Theorem rights_of_a_member :
  forall (request : Request) (view : View) (conn : Connection)
         (m : ClubMembership.t),
    In m (club_memberships (database conn)) ->
    User.id (ClubMembership.user m) = User.id (user request) ->
    safe request = true ->
    (forall obj : Conversation.t,
        Channel.club (Conversation.channel obj) =
          ClubRole.club (ClubMembership.club_role m) ->
        granted IsClubMemberReadOnlyConversation request view obj conn = true) /\
    (forall obj : Project.t,
        In (ClubRole.club (ClubMembership.club_role m))
           (clubs_all obj (database conn)) ->
        granted IsRepOrSecyAndClubMemberReadOnlyProject request view obj conn =
        true).
Proof.
  intros request view conn m Hin Hu Hs.
  assert (Hmem : member_of (database conn) (user request)
                   (ClubRole.club (ClubMembership.club_role m))).
  { exists m. repeat split; assumption. }
  split; intros obj Hc.
  - apply (conversation_granted request view conn obj).
    split; [exact Hs|]. rewrite Hc. exact Hmem.
  - apply (project_granted request view conn obj).
    left. split; [exact Hs|]. right.
    exists (ClubRole.club (ClubMembership.club_role m)).
    split; [exact Hc|exact Hmem].
Qed.

Lemma rights_of_a_member_witness :
  granted IsClubMemberReadOnlyConversation (Sample.GET Sample.alice) APIView
    Sample.chat (Sample.connect Sample.db) = true.
Proof.
  refine (proj1 (rights_of_a_member (Sample.GET Sample.alice) APIView
                   (Sample.connect Sample.db) Sample.alice_is_member _ _ _)
            Sample.chat _).
  - left. reflexivity.
  - reflexivity.
  - reflexivity.
  - reflexivity.
Defined.
